(** * LEDBlink (ESP8266 IoT SDK sample) : shallow embedding and properties

    Source: generators/esp8266/bsp-template/sysprogs/samples/
            LEDBlink_IoT_SDK/LEDBlink.cpp

    The program has two globals ([s_Timer], [s_Tick]) and two functions
    ([TimerFunction], [user_init]).  Both functions are sequences of calls
    into the ESP8266 SDK, so they are written here in a small monad that
    threads the machine state and records the SDK calls that were made. *)

From Stdlib Require Import ZArith List Bool Lia.
Import ListNotations.
Local Open Scope Z_scope.

(** ** The C [int]: 32 bits, two's complement *)

Module Int32.

Definition modulus : Z := 2 ^ 32.
Definition half_modulus : Z := 2 ^ 31.

(** The value an [int] holds after a result [x] is stored in it. *)
Definition wrap (x : Z) : Z := (x + half_modulus) mod modulus - half_modulus.

Definition in_range (x : Z) : Prop := - half_modulus <= x < half_modulus.

(** [x++] on an [int] lvalue. *)
Definition incr (x : Z) : Z := wrap (x + 1).

End Int32.

(** ** Hardware registers touched by the sample *)

(** Modelled from the spec: the constants of the platform headers
    (eagle_soc.h, gpio.h), which are not among the sources.  [BIT1] is the
    mask of the designated pin GPIO1 ("fixed addresses/bit masks provided by
    the platform headers"), [FUNC_GPIO1] the multiplexer function number
    that routes GPIO1 to the U0TXD pad, [NULL] the null pointer. *)
Definition BIT1 : Z := 2.
Definition BIT2 : Z := 4.
Definition FUNC_GPIO1 : Z := 3.
Definition NULL : Z := 0.

(** Modelled from the spec: position and mask of the function field of an
    IO_MUX register (eagle_soc.h). *)
Definition PERIPHS_IO_MUX_FUNC : Z := 19.   (* 0x13 *)
Definition PERIPHS_IO_MUX_FUNC_S : Z := 4.

(** GPIO registers that [GPIO_REG_READ] is applied to. *)
Inductive gpio_reg : Set :=
| GPIO_OUT_ADDRESS
| GPIO_ENABLE_ADDRESS.

(** IO_MUX registers that [PIN_FUNC_SELECT] is applied to. *)
Inductive mux_reg : Set :=
| PERIPHS_IO_MUX_U0TXD_U.

(** The memory-mapped peripheral registers the program reads or writes.
    Registers are 32-bit words, kept as [Z]. *)
Record periph : Set := mkPeriph {
  gpio_out : Z;          (* GPIO_OUT: output level, one bit per pin *)
  gpio_enable : Z;       (* GPIO_ENABLE: output enable, one bit per pin *)
  io_mux_u0txd_u : Z     (* IO_MUX register of the U0TXD pad *)
}.

(** ** Program globals *)

(** Code addresses that are stored in a timer. *)
Inductive callback : Set :=
| Fn_TimerFunction.

(** [os_timer_t]: the fields the timer calls of this program determine. *)
Record os_timer_t : Set := mkTimer {
  timer_func : option callback;   (* NULL until os_timer_setfn *)
  timer_arg : Z;                  (* void *, as an address *)
  timer_period : Z;               (* milliseconds *)
  timer_repeat : bool;
  timer_armed : bool
}.

Record state : Set := mkState {
  hw : periph;
  s_Timer : os_timer_t;     (* static os_timer_t s_Timer; *)
  s_Tick : Z                (* int s_Tick = 0; *)
}.

(** Zero-initialised [static os_timer_t]. *)
Definition zero_timer : os_timer_t := mkTimer None 0 0 false false.

(** The state at entry of [user_init] on boot: statics hold their
    initialisers, the peripheral registers hold whatever the boot ROM left. *)
Definition boot_state (p : periph) : state := mkState p zero_timer 0.

(** ** SDK calls, as recorded in the call log *)

Inductive sdk_call : Set :=
| Call_gpio_init
| Call_PIN_FUNC_SELECT (pin_name : mux_reg) (func : Z)
| Call_gpio_output_set (set_mask clear_mask enable_mask disable_mask : Z)
| Call_os_timer_setfn (pfunction : callback) (parg : Z)
| Call_os_timer_arm (milliseconds : Z) (repeat_flag : bool).

(** ** The monad: state passing plus a log of SDK calls *)

Definition M (A : Type) : Type := state -> A * state * list sdk_call.

Definition ret {A} (a : A) : M A := fun s => (a, s, []).

Definition bind {A B} (m : M A) (k : A -> M B) : M B :=
  fun s =>
    let '(a, s1, l1) := m s in
    let '(b, s2, l2) := k a s1 in
    (b, s2, l1 ++ l2).

Declare Scope blink_scope.
Delimit Scope blink_scope with blink.
Notation "x <- m ;; k" := (bind m (fun x => k))
  (at level 61, m at next level, right associativity) : blink_scope.
Notation "m ;; k" := (bind m (fun _ => k))
  (at level 61, right associativity) : blink_scope.
Local Open Scope blink_scope.

Definition result {A} (m : M A) (s : state) : A := fst (fst (m s)).
Definition exec {A} (m : M A) (s : state) : state := snd (fst (m s)).
Definition calls {A} (m : M A) (s : state) : list sdk_call := snd (m s).

Definition get_hw : M periph := fun s => (hw s, s, []).
Definition put_hw (p : periph) : M unit :=
  fun s => (tt, mkState p (s_Timer s) (s_Tick s), []).
Definition modify_s_Timer (f : os_timer_t -> os_timer_t) : M unit :=
  fun s => (tt, mkState (hw s) (f (s_Timer s)) (s_Tick s), []).
Definition modify_s_Tick (f : Z -> Z) : M unit :=
  fun s => (tt, mkState (hw s) (s_Timer s) (f (s_Tick s)), []).
Definition log (c : sdk_call) : M unit := fun s => (tt, s, [c]).

(** ** The SDK operations the program calls *)

(** Modelled from the spec: the macro [GPIO_REG_READ] (gpio.h, not among
    the sources), a direct read of a memory-mapped GPIO register. *)
Definition GPIO_REG_READ (r : gpio_reg) : M Z :=
  p <- get_hw ;;
  ret (match r with
       | GPIO_OUT_ADDRESS => gpio_out p
       | GPIO_ENABLE_ADDRESS => gpio_enable p
       end).

(** Effect of [gpio_output_set] on the registers: the four masks go to the
    write-1-to-set and write-1-to-clear ports of GPIO_OUT and GPIO_ENABLE,
    in that order. *)
Definition gpio_output_set_regs
    (set_mask clear_mask enable_mask disable_mask : Z) (p : periph) : periph :=
  mkPeriph (Z.ldiff (Z.lor (gpio_out p) set_mask) clear_mask)
           (Z.ldiff (Z.lor (gpio_enable p) enable_mask) disable_mask)
           (io_mux_u0txd_u p).

(** Modelled from the spec: the ROM routine [gpio_output_set] (declared in
    gpio.h, not among the sources), the direct write to the GPIO output and
    output-enable registers. *)
Definition gpio_output_set
    (set_mask clear_mask enable_mask disable_mask : Z) : M unit :=
  log (Call_gpio_output_set set_mask clear_mask enable_mask disable_mask) ;;
  p <- get_hw ;;
  put_hw (gpio_output_set_regs set_mask clear_mask enable_mask disable_mask p).

(** The function field of an IO_MUX register: function bits 0-1 are
    register bits 4-5, function bit 2 is register bit 8. *)
Definition mux_func_bits (func : Z) : Z :=
  Z.shiftl (Z.lor (Z.shiftl (Z.land func BIT2) 2) (Z.land func 3))
           PERIPHS_IO_MUX_FUNC_S.

Definition mux_func_mask : Z :=
  Z.shiftl PERIPHS_IO_MUX_FUNC PERIPHS_IO_MUX_FUNC_S.

(** The function number an IO_MUX register value selects. *)
Definition mux_selected_func (reg : Z) : Z :=
  Z.lor (Z.land (Z.shiftr reg PERIPHS_IO_MUX_FUNC_S) 3)
        (Z.shiftl (Z.land (Z.shiftr reg 8) 1) 2).

Definition READ_MUX (pin_name : mux_reg) (p : periph) : Z :=
  match pin_name with
  | PERIPHS_IO_MUX_U0TXD_U => io_mux_u0txd_u p
  end.

Definition WRITE_MUX (pin_name : mux_reg) (v : Z) (p : periph) : periph :=
  match pin_name with
  | PERIPHS_IO_MUX_U0TXD_U => mkPeriph (gpio_out p) (gpio_enable p) v
  end.

(** Modelled from the spec: the macro [PIN_FUNC_SELECT] (eagle_soc.h, not
    among the sources), a read-modify-write of the function field of the
    named pin function multiplexer register. *)
Definition PIN_FUNC_SELECT (pin_name : mux_reg) (func : Z) : M unit :=
  log (Call_PIN_FUNC_SELECT pin_name func) ;;
  p <- get_hw ;;
  put_hw (WRITE_MUX pin_name
            (Z.lor (Z.land (READ_MUX pin_name p) (Z.lnot mux_func_mask))
                   (mux_func_bits func))
            p).

(** Modelled from the spec: the registration function [os_timer_setfn]
    (osapi.h, not among the sources), which stores a callback and its
    opaque argument in the timer.  The program has one timer, [s_Timer],
    and every timer call is made on [&s_Timer]. *)
Definition os_timer_setfn (pfunction : callback) (parg : Z) : M unit :=
  log (Call_os_timer_setfn pfunction parg) ;;
  modify_s_Timer (fun t =>
    mkTimer (Some pfunction) parg
            (timer_period t) (timer_repeat t) (timer_armed t)).

(** The value a 32-bit unsigned parameter receives from an argument [x]. *)
Definition uint32 (x : Z) : Z := x mod 2 ^ 32.

(** Modelled from the spec: the arm function [os_timer_arm] (osapi.h, not
    among the sources), which takes a period in milliseconds, a 32-bit
    unsigned parameter to which the argument is converted, and a repeat
    flag (a C truth value). *)
Definition os_timer_arm (milliseconds : Z) (repeat_flag : Z) : M unit :=
  let ms := uint32 milliseconds in
  let rep := negb (repeat_flag =? 0) in
  log (Call_os_timer_arm ms rep) ;;
  modify_s_Timer (fun t =>
    mkTimer (timer_func t) (timer_arg t) ms rep true).

(** What the sources do not fix: the body of the ROM routine [gpio_init],
    which acts on peripheral registers only, and the blink period, which
    the build substitutes for [$$com.sysprogs.esp8266.ledblink.DELAYMSEC$$]. *)
Class Platform : Type := {
  rom_gpio_init : periph -> periph;
  DELAYMSEC : Z
}.

Definition gpio_init `{Platform} : M unit :=
  log Call_gpio_init ;;
  p <- get_hw ;;
  put_hw (rom_gpio_init p).

(** ** The program *)

(** [void TimerFunction(void *arg)] *)
Definition TimerFunction (arg : Z) : M unit :=
  modify_s_Tick Int32.incr ;;
  r <- GPIO_REG_READ GPIO_OUT_ADDRESS ;;
  if negb (Z.land r BIT1 =? 0)
  then gpio_output_set 0 BIT1 BIT1 0
  else gpio_output_set BIT1 0 BIT1 0.

(** [int user_init()] *)
Definition user_init `{Platform} : M Z :=
  gpio_init ;;
  PIN_FUNC_SELECT PERIPHS_IO_MUX_U0TXD_U FUNC_GPIO1 ;;
  gpio_output_set 0 BIT1 BIT1 0 ;;
  os_timer_setfn Fn_TimerFunction NULL ;;
  os_timer_arm DELAYMSEC 1 ;;
  ret 0.

(** ** Observations used by the properties *)

Inductive level : Set := PIN_LOW | PIN_HIGH.

Definition level_neg (l : level) : level :=
  match l with PIN_LOW => PIN_HIGH | PIN_HIGH => PIN_LOW end.

(** Level of the designated pin (GPIO1), as held in GPIO_OUT. *)
Definition pin_level_hw (p : periph) : level :=
  if Z.testbit (gpio_out p) 1 then PIN_HIGH else PIN_LOW.

Definition pin_level (s : state) : level := pin_level_hw (hw s).

(** [n] consecutive invocations of the callback with argument [arg]. *)
Fixpoint invoke_n (arg : Z) (n : nat) (s : state) : state :=
  match n with
  | O => s
  | S n' => exec (TimerFunction arg) (invoke_n arg n' s)
  end.



(** The state a callback would leave if all it did was toggle the pin. *)
Definition toggle_pin_only (s : state) : state :=
  mkState (mkPeriph (Z.lxor (gpio_out (hw s)) BIT1)
                    (gpio_enable (hw s))
                    (io_mux_u0txd_u (hw s)))
          (s_Timer s) (s_Tick s).

(** A concrete platform: a [gpio_init] that resets the U0TXD multiplexer
    register and leaves the GPIO registers alone; a 500 ms period. *)
Definition sample_platform : Platform :=
  {| rom_gpio_init := fun p => mkPeriph (gpio_out p) (gpio_enable p) 128;
     DELAYMSEC := 500 |}.


(** A peripheral state with GPIO1 high and not yet enabled. *)
Definition sample_periph : periph := mkPeriph 6 0 0.

(** ** Runs of the callback, with their call log *)

(** [n] consecutive invocations of the callback as one computation, so
    that the SDK calls of the whole run are collected. *)
Fixpoint callbacks (arg : Z) (n : nat) : M unit :=
  match n with
  | O => ret tt
  | S n' => callbacks arg n' ;; TimerFunction arg
  end.

(** The two [gpio_output_set] calls that occur in [TimerFunction]: of the
    else branch (drive high) and of the then branch (drive low). *)
Definition drive_high_call : sdk_call := Call_gpio_output_set BIT1 0 BIT1 0.
Definition drive_low_call : sdk_call := Call_gpio_output_set 0 BIT1 BIT1 0.

Definition alternating_call (k : nat) : sdk_call :=
  if Nat.even k then drive_high_call else drive_low_call.

(** The registers with the designated pin driven high. *)
Definition with_pin_high (p : periph) : periph :=
  mkPeriph (Z.lor (gpio_out p) BIT1) (gpio_enable p) (io_mux_u0txd_u p).

(** A value that fits a 32-bit register. *)
Definition word32 (x : Z) : Prop := 0 <= x < 2 ^ 32.

(** Registers and counter hold values of their C types. *)
Definition well_typed (s : state) : Prop :=
  word32 (gpio_out (hw s)) /\ word32 (gpio_enable (hw s)) /\
  Int32.in_range (s_Tick s).

(** * Properties *)

(** ** Arithmetic of [int] and of single bits *)

Lemma wrap_absorb (a b : Z) :
  Int32.wrap (Int32.wrap a + b) = Int32.wrap (a + b).
Proof.
  unfold Int32.wrap.
  replace ((a + Int32.half_modulus) mod Int32.modulus - Int32.half_modulus
           + b + Int32.half_modulus)
    with ((a + Int32.half_modulus) mod Int32.modulus + b) by ring.
  replace (a + b + Int32.half_modulus) with (a + Int32.half_modulus + b) by ring.
  now rewrite Zplus_mod_idemp_l.
Qed.

Lemma wrap_in_range (x : Z) : Int32.in_range (Int32.wrap x).
Proof.
  unfold Int32.in_range, Int32.wrap.
  assert (0 <= (x + Int32.half_modulus) mod Int32.modulus < Int32.modulus)
    by (apply Z.mod_pos_bound; reflexivity).
  change Int32.modulus with (2 * Int32.half_modulus) in *.
  lia.
Qed.

Lemma wrap_small (x : Z) : Int32.in_range x -> Int32.wrap x = x.
Proof.
  unfold Int32.in_range, Int32.wrap. intros Hx.
  rewrite Z.mod_small; [ring|].
  change Int32.modulus with (2 * Int32.half_modulus). lia.
Qed.

Lemma uint32_small (x : Z) : word32 x -> uint32 x = x.
Proof. unfold word32, uint32. intros Hx. now apply Z.mod_small. Qed.

Lemma testbit_BIT1 (i : Z) : Z.testbit BIT1 i = (i =? 1).
Proof.
  change BIT1 with (2 ^ 1).
  rewrite Z.pow2_bits_eqb by lia.
  apply Z.eqb_sym.
Qed.

(** The C test [r & BIT1] is a test of bit 1. *)
Lemma land_BIT1_test (r : Z) :
  negb (Z.land r BIT1 =? 0) = Z.testbit r 1.
Proof.
  assert (E : Z.land r BIT1 = if Z.testbit r 1 then BIT1 else 0).
  { apply Z.bits_inj. intros i.
    rewrite Z.land_spec, testbit_BIT1.
    destruct (Z.eqb_spec i 1) as [->|Hi].
    - destruct (Z.testbit r 1); reflexivity.
    - rewrite andb_false_r.
      destruct (Z.testbit r 1).
      + rewrite testbit_BIT1. symmetry. now apply Z.eqb_neq.
      + now rewrite Z.bits_0. }
  rewrite E. destruct (Z.testbit r 1); reflexivity.
Qed.

Lemma set_BIT1_when_clear (r : Z) :
  Z.testbit r 1 = false -> Z.ldiff (Z.lor r BIT1) 0 = Z.lxor r BIT1.
Proof.
  intros Hr. rewrite Z.ldiff_0_r.
  apply Z.bits_inj. intros i.
  rewrite Z.lor_spec, Z.lxor_spec, testbit_BIT1.
  destruct (Z.eqb_spec i 1) as [->|Hi].
  - now rewrite Hr.
  - now rewrite orb_false_r, xorb_false_r.
Qed.

Lemma clear_BIT1_when_set (r : Z) :
  Z.testbit r 1 = true -> Z.ldiff (Z.lor r 0) BIT1 = Z.lxor r BIT1.
Proof.
  intros Hr. rewrite Z.lor_0_r.
  apply Z.bits_inj. intros i.
  rewrite Z.ldiff_spec, Z.lxor_spec, testbit_BIT1.
  destruct (Z.eqb_spec i 1) as [->|Hi].
  - now rewrite Hr.
  - now rewrite andb_true_r, xorb_false_r.
Qed.

Lemma lxor_BIT1_bit1 (r : Z) :
  Z.testbit (Z.lxor r BIT1) 1 = negb (Z.testbit r 1).
Proof.
  rewrite Z.lxor_spec, testbit_BIT1. simpl.
  now destruct (Z.testbit r 1).
Qed.




Lemma ldiff_BIT1_bit1 (r : Z) : Z.testbit (Z.ldiff r BIT1) 1 = false.
Proof.
  rewrite Z.ldiff_spec, testbit_BIT1. simpl. apply andb_false_r.
Qed.

Lemma lor_BIT1_bit1 (r : Z) : Z.testbit (Z.lor r BIT1) 1 = true.
Proof.
  rewrite Z.lor_spec, testbit_BIT1. simpl. apply orb_true_r.
Qed.

(** ** The function field written by [PIN_FUNC_SELECT] *)

Lemma mux_select_FUNC_GPIO1 (reg : Z) :
  mux_selected_func
    (Z.lor (Z.land reg (Z.lnot mux_func_mask)) (mux_func_bits FUNC_GPIO1))
  = FUNC_GPIO1.
Proof.
  change (mux_func_bits FUNC_GPIO1) with 48.
  change mux_func_mask with 304.
  unfold mux_selected_func.
  change PERIPHS_IO_MUX_FUNC_S with 4. change FUNC_GPIO1 with 3.
  set (w := Z.lor (Z.land reg (Z.lnot 304)) 48).
  assert (B : forall k, 0 <= k ->
            Z.testbit w k = (Z.testbit reg k && negb (Z.testbit 304 k))
                            || Z.testbit 48 k).
  { intros k Hk. unfold w.
    now rewrite Z.lor_spec, Z.land_spec, Z.lnot_spec. }
  assert (Lo : Z.land (Z.shiftr w 4) 3 = 3).
  { apply Z.bits_inj'. intros n Hn.
    rewrite Z.land_spec, Z.shiftr_spec, B by lia.
    destruct (Z.eq_dec n 0) as [->|H0].
    { change (Z.testbit 48 (0 + 4)) with true. now rewrite orb_true_r. }
    destruct (Z.eq_dec n 1) as [->|H1].
    { change (Z.testbit 48 (1 + 4)) with true. now rewrite orb_true_r. }
    rewrite (Z.bits_above_log2 3 n) by (simpl; lia).
    apply andb_false_r. }
  assert (Hi : Z.land (Z.shiftr w 8) 1 = 0).
  { apply Z.bits_inj'. intros n Hn.
    rewrite Z.land_spec, Z.shiftr_spec, B, Z.bits_0 by lia.
    destruct (Z.eq_dec n 0) as [->|H0].
    - change (Z.testbit 304 (0 + 8)) with true.
      change (Z.testbit 48 (0 + 8)) with false.
      now rewrite andb_false_r.
    - rewrite (Z.bits_above_log2 1 n) by (simpl; lia).
      apply andb_false_r. }
  rewrite Lo, Hi. reflexivity.
Qed.

(** ** What one run of each function computes *)

Lemma TimerFunction_run (arg : Z) (s : state) :
  TimerFunction arg s =
  (tt,
   mkState (mkPeriph (Z.lxor (gpio_out (hw s)) BIT1)
                     (Z.lor (gpio_enable (hw s)) BIT1)
                     (io_mux_u0txd_u (hw s)))
           (s_Timer s)
           (Int32.incr (s_Tick s)),
   [if Z.testbit (gpio_out (hw s)) 1
    then Call_gpio_output_set 0 BIT1 BIT1 0
    else Call_gpio_output_set BIT1 0 BIT1 0]).
Proof.
  destruct s as [[out en mux] tm tick].
  cbv beta iota zeta delta
    [TimerFunction bind modify_s_Tick GPIO_REG_READ get_hw ret
     hw s_Timer s_Tick gpio_out gpio_enable io_mux_u0txd_u].
  rewrite land_BIT1_test.
  destruct (Z.testbit out 1) eqn:Hb;
    cbv beta iota zeta delta
      [gpio_output_set bind log get_hw put_hw gpio_output_set_regs app
       hw s_Timer s_Tick gpio_out gpio_enable io_mux_u0txd_u];
    rewrite (Z.ldiff_0_r (Z.lor en BIT1)).
  - now rewrite (clear_BIT1_when_set out Hb).
  - now rewrite (set_BIT1_when_clear out Hb).
Qed.

Lemma user_init_run `{Platform} (s : state) :
  user_init s =
  (0,
   mkState (mkPeriph
              (Z.ldiff (gpio_out (rom_gpio_init (hw s))) BIT1)
              (Z.lor (gpio_enable (rom_gpio_init (hw s))) BIT1)
              (Z.lor (Z.land (io_mux_u0txd_u (rom_gpio_init (hw s)))
                             (Z.lnot mux_func_mask))
                     (mux_func_bits FUNC_GPIO1)))
           (mkTimer (Some Fn_TimerFunction) NULL (uint32 DELAYMSEC) true true)
           (s_Tick s),
   [Call_gpio_init;
    Call_PIN_FUNC_SELECT PERIPHS_IO_MUX_U0TXD_U FUNC_GPIO1;
    Call_gpio_output_set 0 BIT1 BIT1 0;
    Call_os_timer_setfn Fn_TimerFunction NULL;
    Call_os_timer_arm (uint32 DELAYMSEC) true]).
Proof.
  destruct s as [p tm tick].
  cbv beta iota zeta delta
    [user_init gpio_init PIN_FUNC_SELECT gpio_output_set os_timer_setfn
     os_timer_arm bind log get_hw put_hw modify_s_Timer ret
     gpio_output_set_regs WRITE_MUX READ_MUX app
     hw s_Timer s_Tick gpio_out gpio_enable io_mux_u0txd_u
     timer_func timer_arg timer_period timer_repeat timer_armed].
  rewrite Z.lor_0_r, Z.ldiff_0_r.
  reflexivity.
Qed.

Lemma TimerFunction_exec (arg : Z) (s : state) :
  exec (TimerFunction arg) s =
  mkState (mkPeriph (Z.lxor (gpio_out (hw s)) BIT1)
                    (Z.lor (gpio_enable (hw s)) BIT1)
                    (io_mux_u0txd_u (hw s)))
          (s_Timer s)
          (Int32.incr (s_Tick s)).
Proof. unfold exec. now rewrite TimerFunction_run. Qed.

Lemma TimerFunction_negates (arg : Z) (s : state) :
  pin_level (exec (TimerFunction arg) s) = level_neg (pin_level s).
Proof.
  rewrite TimerFunction_exec. unfold pin_level, pin_level_hw. cbn [hw gpio_out].
  rewrite lxor_BIT1_bit1. now destruct (Z.testbit (gpio_out (hw s)) 1).
Qed.

Lemma user_init_pin_low `{Platform} (s : state) :
  pin_level (exec user_init s) = PIN_LOW.
Proof.
  unfold exec. rewrite user_init_run.
  unfold pin_level, pin_level_hw. cbn [fst snd hw gpio_out].
  now rewrite ldiff_BIT1_bit1.
Qed.

Lemma user_init_keeps_tick `{Platform} (s : state) :
  s_Tick (exec user_init s) = s_Tick s.
Proof. unfold exec. now rewrite user_init_run. Qed.

Lemma wrap_idem (x : Z) : Int32.wrap (Int32.wrap x) = Int32.wrap x.
Proof. apply wrap_small, wrap_in_range. Qed.

Lemma invoke_n_S_tick (arg : Z) (n : nat) (s : state) :
  s_Tick (invoke_n arg (S n) s) = Int32.wrap (s_Tick (invoke_n arg n s) + 1).
Proof. cbn [invoke_n]. now rewrite TimerFunction_exec. Qed.

(** The counter after [n] callbacks, up to the width of [int]. *)
Lemma invoke_n_tick_congr (arg : Z) (n : nat) (s : state) :
  Int32.wrap (s_Tick (invoke_n arg n s)) = Int32.wrap (s_Tick s + Z.of_nat n).
Proof.
  induction n as [|n IH].
  - cbn [invoke_n]. f_equal. lia.
  - rewrite invoke_n_S_tick, wrap_idem.
    rewrite <- wrap_absorb, IH, wrap_absorb.
    f_equal. lia.
Qed.

Lemma invoke_n_tick_in_range (arg : Z) (n : nat) (s : state) :
  Int32.in_range (s_Tick s) -> Int32.in_range (s_Tick (invoke_n arg n s)).
Proof.
  intros Hs. destruct n as [|n]; [exact Hs|].
  rewrite invoke_n_S_tick. apply wrap_in_range.
Qed.

Lemma invoke_n_tick (arg : Z) (n : nat) (s : state) :
  Int32.in_range (s_Tick s) ->
  s_Tick (invoke_n arg n s) = Int32.wrap (s_Tick s + Z.of_nat n).
Proof.
  intros Hs.
  rewrite <- (invoke_n_tick_congr arg).
  symmetry. now apply wrap_small, invoke_n_tick_in_range.
Qed.

(** Without overflow the counter is the plain sum. *)
Lemma invoke_n_tick_exact (arg : Z) (n : nat) (s : state) :
  Int32.in_range (s_Tick s) ->
  s_Tick s + Z.of_nat n < Int32.half_modulus ->
  s_Tick (invoke_n arg n s) = s_Tick s + Z.of_nat n.
Proof.
  intros Hs Hn. rewrite invoke_n_tick by exact Hs.
  apply wrap_small. unfold Int32.in_range in *. lia.
Qed.

Lemma invoke_n_pin (arg : Z) (n : nat) (s : state) :
  pin_level (invoke_n arg n s) =
  if Nat.even n then pin_level s else level_neg (pin_level s).
Proof.
  induction n as [|n IH].
  - reflexivity.
  - cbn [invoke_n]. rewrite TimerFunction_negates, IH, Nat.even_succ.
    rewrite <- Nat.negb_even.
    destruct (Nat.even n), (pin_level s); reflexivity.
Qed.





(** ** The scenario of the specification, on the sample platform *)

Example scenario_boot :
  let s0 := exec (@user_init sample_platform) (boot_state sample_periph) in
  (pin_level s0, s_Tick s0) = (PIN_LOW, 0) /\
  (pin_level (invoke_n NULL 1 s0), s_Tick (invoke_n NULL 1 s0)) = (PIN_HIGH, 1) /\
  (pin_level (invoke_n NULL 2 s0), s_Tick (invoke_n NULL 2 s0)) = (PIN_LOW, 2) /\
  (pin_level (invoke_n NULL 100 s0), s_Tick (invoke_n NULL 100 s0))
    = (PIN_LOW, 100).
Proof. vm_compute. repeat split. Qed.

Example tick_wraps :
  Int32.incr (Int32.half_modulus - 1) = - Int32.half_modulus.
Proof. reflexivity. Qed.

(** ** The claims *)

(** C1. After [N] consecutive invocations of [TimerFunction], starting from
    the state [user_init] produces (from any state), the designated pin is
    at [PIN_LOW] when [N] is even and at [PIN_HIGH] when [N] is odd. *)
Theorem blink_alternation `{Platform} (arg : Z) (N : nat) (s : state) :
  pin_level (invoke_n arg N (exec user_init s)) =
  if Nat.even N then PIN_LOW else PIN_HIGH.
Proof.
  rewrite invoke_n_pin, user_init_pin_low.
  now destruct (Nat.even N).
Qed.

(** C2. [user_init] is invoked on boot, where the statics hold their
    initialisers and the peripheral registers hold anything: the state it
    leaves has the designated pin at [PIN_LOW] and [s_Tick] at its initial
    value 0.  The pin is at [PIN_LOW] after [user_init] from any state at
    all. *)
Theorem user_init_post_boot `{Platform} :
  (forall p : periph,
     pin_level (exec user_init (boot_state p)) = PIN_LOW /\
     s_Tick (exec user_init (boot_state p)) = 0) /\
  (forall s : state, pin_level (exec user_init s) = PIN_LOW).
Proof.
  split.
  - intros p. split.
    + apply user_init_pin_low.
    + now rewrite user_init_keeps_tick.
  - apply user_init_pin_low.
Qed.

(** C3. One invocation of [TimerFunction] increments [s_Tick] exactly once,
    and after [N] invocations from any state the counter is its earlier
    value plus [N], up to the wrap-around of the 32-bit [int]. *)
Theorem tick_counts_invocations (arg : Z) (N : nat) (s : state) :
  s_Tick (exec (TimerFunction arg) s) = Int32.wrap (s_Tick s + 1) /\
  Int32.wrap (s_Tick (invoke_n arg N s)) = Int32.wrap (s_Tick s + Z.of_nat N) /\
  (Int32.in_range (s_Tick s) ->
   s_Tick (invoke_n arg N s) = Int32.wrap (s_Tick s + Z.of_nat N)).
Proof.
  split; [|split].
  - now rewrite TimerFunction_exec.
  - apply invoke_n_tick_congr.
  - apply invoke_n_tick.
Qed.

Lemma tick_counts_invocations_witness :
  Int32.in_range (s_Tick (boot_state sample_periph)) /\
  s_Tick (invoke_n NULL 5 (boot_state sample_periph)) = 5.
Proof.
  split.
  - unfold Int32.in_range, Int32.half_modulus. simpl. lia.
  - destruct (tick_counts_invocations NULL 5 (boot_state sample_periph))
      as [_ [_ Hn]].
    rewrite Hn.
    + reflexivity.
    + unfold Int32.in_range, Int32.half_modulus. simpl. lia.
Defined.

(** C4. Whatever the level in GPIO_OUT and whatever [s_Tick] and [s_Timer]
    hold, one invocation of [TimerFunction] leaves the pin at the negation
    of the level read from GPIO_OUT; the software state has no influence. *)
Theorem toggle_negates_hardware_level
    (arg : Z) (s : state) (tm : os_timer_t) (tick : Z) :
  pin_level (exec (TimerFunction arg) s) = level_neg (pin_level_hw (hw s)) /\
  pin_level (exec (TimerFunction arg) (mkState (hw s) tm tick))
    = pin_level (exec (TimerFunction arg) s).
Proof.
  split.
  - apply TimerFunction_negates.
  - now rewrite !TimerFunction_negates.
Qed.

(** C5. [user_init] selects the GPIO function in the pin's multiplexer and
    enables the pin as output, drives it low, stores [TimerFunction] in the
    timer and arms the timer, repeating, with the configured period as the
    32-bit parameter of [os_timer_arm] receives it: [DELAYMSEC] itself when
    it is a 32-bit value.  The calls are made in that order (after
    [gpio_init]). *)
Theorem user_init_configures `{Platform} (s : state) :
  let s' := exec user_init s in
  calls user_init s =
    [Call_gpio_init;
     Call_PIN_FUNC_SELECT PERIPHS_IO_MUX_U0TXD_U FUNC_GPIO1;
     Call_gpio_output_set 0 BIT1 BIT1 0;
     Call_os_timer_setfn Fn_TimerFunction NULL;
     Call_os_timer_arm (uint32 DELAYMSEC) true] /\
  mux_selected_func (io_mux_u0txd_u (hw s')) = FUNC_GPIO1 /\
  Z.testbit (gpio_enable (hw s')) 1 = true /\
  pin_level s' = PIN_LOW /\
  timer_func (s_Timer s') = Some Fn_TimerFunction /\
  timer_arg (s_Timer s') = NULL /\
  timer_armed (s_Timer s') = true /\
  timer_repeat (s_Timer s') = true /\
  timer_period (s_Timer s') = uint32 DELAYMSEC /\
  (word32 DELAYMSEC ->
   timer_period (s_Timer s') = DELAYMSEC /\
   last (calls user_init s) Call_gpio_init = Call_os_timer_arm DELAYMSEC true).
Proof.
  cbv zeta. unfold calls, exec, pin_level, pin_level_hw.
  rewrite user_init_run.
  cbn [fst snd hw s_Timer gpio_out gpio_enable io_mux_u0txd_u last
       timer_func timer_arg timer_armed timer_repeat timer_period].
  rewrite mux_select_FUNC_GPIO1, lor_BIT1_bit1, ldiff_BIT1_bit1.
  repeat split; rewrite uint32_small by assumption; reflexivity.
Qed.

Lemma user_init_configures_witness :
  word32 (@DELAYMSEC sample_platform) /\
  timer_period
    (s_Timer (exec (@user_init sample_platform) (boot_state sample_periph)))
  = 500.
Proof.
  assert (Hw : word32 (@DELAYMSEC sample_platform))
    by (unfold word32; simpl; lia).
  split; [exact Hw|].
  destruct (@user_init_configures sample_platform (boot_state sample_periph))
    as (_ & _ & _ & _ & _ & _ & _ & _ & _ & Hp).
  exact (proj1 (Hp Hw)).
Defined.

(** C6. [user_init] returns 0 in every state. *)
Theorem user_init_returns_zero `{Platform} (s : state) :
  result user_init s = 0.
Proof. unfold result. now rewrite user_init_run. Qed.

(** C7, as stated: the state after [TimerFunction] is the state before
    with the pin toggled and nothing else changed.  It fails in the
    initialised state, where the callback also changes [s_Tick]. *)
Lemma toggle_only_effect_fails :
  let s := exec (@user_init sample_platform) (boot_state sample_periph) in
  exec (TimerFunction NULL) s <> toggle_pin_only s.
Proof.
  intros s E. apply (f_equal s_Tick) in E.
  vm_compute in E. discriminate E.
Qed.

(** C7, amended: [TimerFunction] returns no value; it toggles bit 1 of
    GPIO_OUT, sets bit 1 of GPIO_ENABLE and increments [s_Tick]; the other
    register bits, the multiplexer register and [s_Timer] are unchanged. *)
Theorem TimerFunction_effects (arg : Z) (s : state) :
  result (TimerFunction arg) s = tt /\
  exec (TimerFunction arg) s =
    mkState (mkPeriph (Z.lxor (gpio_out (hw s)) BIT1)
                      (Z.lor (gpio_enable (hw s)) BIT1)
                      (io_mux_u0txd_u (hw s)))
            (s_Timer s)
            (Int32.incr (s_Tick s)).
Proof.
  split.
  - now destruct (result (TimerFunction arg) s).
  - apply TimerFunction_exec.
Qed.

(** C8. [TimerFunction] does not use its argument: from the same state, any
    two argument values (null included) give the same result, the same
    state and the same SDK calls. *)
Theorem TimerFunction_ignores_arg (arg1 arg2 : Z) (s : state) :
  TimerFunction arg1 s = TimerFunction arg2 s /\
  TimerFunction NULL s = TimerFunction arg1 s.
Proof. now rewrite !TimerFunction_run. Qed.




(** C10. [user_init] does not write [s_Tick]: its value after the call is
    its value before, in every state. *)
Theorem user_init_preserves_tick `{Platform} (s : state) :
  s_Tick (exec user_init s) = s_Tick s.
Proof. unfold exec. now rewrite user_init_run. Qed.

(** * Further properties of the two functions *)

(** ** Helper facts about runs of the callback *)

Lemma lxor_BIT1_twice (r : Z) : Z.lxor (Z.lxor r BIT1) BIT1 = r.
Proof. now rewrite Z.lxor_assoc, Z.lxor_nilpotent, Z.lxor_0_r. Qed.

Lemma lor_BIT1_twice (r : Z) : Z.lor (Z.lor r BIT1) BIT1 = Z.lor r BIT1.
Proof. now rewrite <- Z.lor_assoc, Z.lor_diag. Qed.

Lemma lxor_BIT1_of_cleared (r : Z) :
  Z.lxor (Z.ldiff r BIT1) BIT1 = Z.lor (Z.ldiff r BIT1) BIT1.
Proof.
  rewrite <- (set_BIT1_when_clear _ (ldiff_BIT1_bit1 r)).
  apply Z.ldiff_0_r.
Qed.

Lemma lxor_BIT1_of_set (r : Z) :
  Z.lxor (Z.lor (Z.ldiff r BIT1) BIT1) BIT1 = Z.ldiff r BIT1.
Proof. rewrite <- lxor_BIT1_of_cleared. apply lxor_BIT1_twice. Qed.

Lemma invoke_n_frame (arg : Z) (n : nat) (s : state) :
  s_Timer (invoke_n arg n s) = s_Timer s /\
  io_mux_u0txd_u (hw (invoke_n arg n s)) = io_mux_u0txd_u (hw s).
Proof.
  induction n as [|n [IHt IHm]].
  - now split.
  - cbn [invoke_n]. rewrite TimerFunction_exec.
    cbn [s_Timer hw io_mux_u0txd_u]. now split.
Qed.

Lemma invoke_n_gpio_out (arg : Z) (n : nat) (s : state) :
  gpio_out (hw (invoke_n arg n s)) =
  if Nat.even n then gpio_out (hw s) else Z.lxor (gpio_out (hw s)) BIT1.
Proof.
  induction n as [|n IH].
  - reflexivity.
  - cbn [invoke_n]. rewrite TimerFunction_exec. cbn [hw gpio_out].
    rewrite IH, Nat.even_succ, <- Nat.negb_even.
    destruct (Nat.even n); cbn [negb]; [reflexivity|apply lxor_BIT1_twice].
Qed.

Lemma invoke_n_gpio_enable (arg : Z) (n : nat) (s : state) :
  gpio_enable (hw (invoke_n arg (S n) s)) = Z.lor (gpio_enable (hw s)) BIT1.
Proof.
  induction n as [|n IH].
  - cbn [invoke_n]. now rewrite TimerFunction_exec.
  - change (invoke_n arg (S (S n)) s)
      with (exec (TimerFunction arg) (invoke_n arg (S n) s)).
    rewrite TimerFunction_exec. cbn [hw gpio_enable].
    rewrite IH. apply lor_BIT1_twice.
Qed.

Lemma periph_eq (p q : periph) :
  gpio_out p = gpio_out q -> gpio_enable p = gpio_enable q ->
  io_mux_u0txd_u p = io_mux_u0txd_u q -> p = q.
Proof. destruct p, q. cbn. now intros -> -> ->. Qed.

(** The registers at any point of a run that starts after [user_init]. *)
Lemma invoke_n_hw_after_init `{Platform} (arg : Z) (n : nat) (s : state) :
  hw (invoke_n arg n (exec user_init s)) =
  if Nat.even n then hw (exec user_init s)
  else with_pin_high (hw (exec user_init s)).
Proof.
  assert (Eo : gpio_out (hw (exec user_init s))
               = Z.ldiff (gpio_out (rom_gpio_init (hw s))) BIT1)
    by (unfold exec; now rewrite user_init_run).
  assert (Ee : gpio_enable (hw (exec user_init s))
               = Z.lor (gpio_enable (rom_gpio_init (hw s))) BIT1)
    by (unfold exec; now rewrite user_init_run).
  apply periph_eq.
  - rewrite invoke_n_gpio_out, Eo.
    destruct (Nat.even n); cbn [with_pin_high gpio_out]; rewrite ?Eo;
      [reflexivity|apply lxor_BIT1_of_cleared].
  - destruct n as [|n].
    + reflexivity.
    + rewrite invoke_n_gpio_enable, Ee, lor_BIT1_twice.
      destruct (Nat.even (S n)); cbn [with_pin_high gpio_enable];
        now rewrite Ee.
  - rewrite (proj2 (invoke_n_frame arg n _)).
    now destruct (Nat.even n).
Qed.

Lemma callbacks_exec (arg : Z) (n : nat) (s : state) :
  exec (callbacks arg n) s = invoke_n arg n s.
Proof.
  induction n as [|n IH].
  - reflexivity.
  - cbn [callbacks invoke_n]. rewrite <- IH.
    unfold exec, bind.
    destruct (callbacks arg n s) as [[u s1] l1]. cbn [fst snd].
    now destruct (TimerFunction arg s1) as [[u2 s2] l2].
Qed.

Lemma callbacks_calls_S (arg : Z) (n : nat) (s : state) :
  calls (callbacks arg (S n)) s =
  calls (callbacks arg n) s ++ calls (TimerFunction arg) (invoke_n arg n s).
Proof.
  rewrite <- callbacks_exec.
  cbn [callbacks]. unfold calls, exec, bind.
  destruct (callbacks arg n s) as [[u s1] l1]. cbn [fst snd].
  now destruct (TimerFunction arg s1) as [[u2 s2] l2].
Qed.

Lemma wrap_odd (x : Z) : Z.odd (Int32.wrap x) = Z.odd x.
Proof.
  unfold Int32.wrap.
  rewrite Z.mod_eq by discriminate.
  replace (x + Int32.half_modulus
           - Int32.modulus * ((x + Int32.half_modulus) / Int32.modulus)
           - Int32.half_modulus)
    with (x - Int32.modulus * ((x + Int32.half_modulus) / Int32.modulus))
    by ring.
  rewrite Z.odd_sub, Z.odd_mul.
  change (Z.odd Int32.modulus) with false.
  cbn [andb]. apply xorb_false_r.
Qed.

Lemma word32_log2 (x : Z) : word32 x <-> 0 <= x /\ Z.log2 x < 32.
Proof.
  unfold word32. split.
  - intros [H0 H1]. split; [exact H0|].
    destruct (Z.eq_dec x 0) as [->|Hx]; [reflexivity|].
    apply Z.log2_lt_pow2; lia.
  - intros [H0 H1]. split; [exact H0|].
    destruct (Z.eq_dec x 0) as [->|Hx]; [reflexivity|].
    apply Z.log2_lt_pow2; lia.
Qed.

Lemma word32_lxor_BIT1 (x : Z) : word32 x -> word32 (Z.lxor x BIT1).
Proof.
  rewrite !word32_log2. intros [H0 H1]. split.
  - apply Z.lxor_nonneg. unfold BIT1. lia.
  - pose proof (Z.log2_lxor x BIT1 H0 ltac:(unfold BIT1; lia)) as L.
    change (Z.log2 BIT1) with 1 in L. lia.
Qed.

Lemma word32_lor_BIT1 (x : Z) : word32 x -> word32 (Z.lor x BIT1).
Proof.
  rewrite !word32_log2. intros [H0 H1]. split.
  - apply Z.lor_nonneg. unfold BIT1. lia.
  - rewrite Z.log2_lor by (unfold BIT1; lia).
    change (Z.log2 BIT1) with 1. lia.
Qed.

Lemma TimerFunction_well_typed (arg : Z) (s : state) :
  well_typed s -> well_typed (exec (TimerFunction arg) s).
Proof.
  intros (Ho & He & Ht). rewrite TimerFunction_exec.
  unfold well_typed. cbn [hw gpio_out gpio_enable s_Tick].
  repeat split;
    try (now apply word32_lxor_BIT1 || now apply word32_lor_BIT1);
    apply (wrap_in_range (s_Tick s + 1)).
Qed.

Lemma invoke_n_tick_odd (arg : Z) (n : nat) (s : state) :
  Z.odd (s_Tick (invoke_n arg n s)) =
  xorb (Z.odd (s_Tick s)) (negb (Nat.even n)).
Proof.
  induction n as [|n IH].
  - cbn [invoke_n Nat.even negb]. now rewrite xorb_false_r.
  - rewrite invoke_n_S_tick, wrap_odd, Z.odd_add, IH.
    rewrite Nat.even_succ, <- Nat.negb_even.
    change (Z.odd 1) with true.
    destruct (Z.odd (s_Tick s)), (Nat.even n); reflexivity.
Qed.

Lemma user_init_bit1_clear `{Platform} (s : state) :
  Z.testbit (gpio_out (hw (exec user_init s))) 1 = false.
Proof.
  unfold exec. rewrite user_init_run. cbn [fst snd hw gpio_out].
  apply ldiff_BIT1_bit1.
Qed.

Lemma invoke_n_well_typed (arg : Z) (n : nat) (s : state) :
  well_typed s -> well_typed (invoke_n arg n s).
Proof.
  intros Hs. induction n as [|n IH]; [exact Hs|].
  cbn [invoke_n]. now apply TimerFunction_well_typed.
Qed.

(** ** The properties *)

(** X1. Whatever the state and the arguments, a callback leaves the pin's
    output-enable bit set, two callbacks in a row give back the GPIO_OUT
    value they started from, and after the first callback the peripheral
    registers repeat with period two. *)
Theorem callback_hw_period_two (a1 a2 a3 : Z) (s : state) :
  Z.testbit (gpio_enable (hw (exec (TimerFunction a1) s))) 1 = true /\
  gpio_out (hw (exec (TimerFunction a2) (exec (TimerFunction a1) s)))
    = gpio_out (hw s) /\
  hw (exec (TimerFunction a3)
        (exec (TimerFunction a2) (exec (TimerFunction a1) s)))
    = hw (exec (TimerFunction a1) s).
Proof.
  rewrite !TimerFunction_exec. cbn [hw gpio_out gpio_enable io_mux_u0txd_u].
  rewrite lor_BIT1_bit1, !lxor_BIT1_twice, !lor_BIT1_twice.
  repeat split.
Qed.

(** X2. No number of callbacks, from any state, changes [s_Timer] or the
    pin's multiplexer register: the callback never re-registers, re-arms or
    disarms the timer and never re-routes the pin. *)
Theorem callbacks_keep_timer_and_mux (arg : Z) (N : nat) (s : state) :
  s_Timer (invoke_n arg N s) = s_Timer s /\
  io_mux_u0txd_u (hw (invoke_n arg N s)) = io_mux_u0txd_u (hw s).
Proof. apply invoke_n_frame. Qed.

(** X3. After [user_init] and any number [N] of callbacks, the peripheral
    registers are those [user_init] left when [N] is even and those with
    bit 1 of GPIO_OUT set when [N] is odd; the timer still holds
    [TimerFunction], armed and repeating with the period [os_timer_arm]
    received, [DELAYMSEC] as a 32-bit unsigned value; the
    multiplexer still selects the GPIO function and the pin is still an
    output. *)
Theorem run_after_init `{Platform} (arg : Z) (N : nat) (s : state) :
  let s0 := exec user_init s in
  let sN := invoke_n arg N s0 in
  hw sN = (if Nat.even N then hw s0 else with_pin_high (hw s0)) /\
  s_Timer sN
    = mkTimer (Some Fn_TimerFunction) NULL (uint32 DELAYMSEC) true true /\
  mux_selected_func (io_mux_u0txd_u (hw sN)) = FUNC_GPIO1 /\
  Z.testbit (gpio_enable (hw sN)) 1 = true.
Proof.
  cbv zeta.
  destruct (invoke_n_frame arg N (exec user_init s)) as [Ft Fm].
  split; [apply invoke_n_hw_after_init|].
  split; [rewrite Ft; unfold exec; now rewrite user_init_run|].
  split.
  - rewrite Fm. unfold exec. rewrite user_init_run.
    cbn [fst snd hw io_mux_u0txd_u]. apply mux_select_FUNC_GPIO1.
  - rewrite invoke_n_hw_after_init.
    assert (E : Z.testbit (gpio_enable (hw (exec user_init s))) 1 = true).
    { unfold exec. rewrite user_init_run. cbn [fst snd hw gpio_enable].
      apply lor_BIT1_bit1. }
    now destruct (Nat.even N).
Qed.

(** X4. When [user_init] runs with an even [s_Tick] (0 on boot), the pin
    level after any number of callbacks is the parity of the counter: high
    exactly when [s_Tick] is odd, also across the wrap-around of [int]. *)
Theorem pin_follows_tick_parity `{Platform} (arg : Z) (N : nat) (s : state) :
  Z.odd (s_Tick s) = false ->
  pin_level (invoke_n arg N (exec user_init s)) =
  if Z.odd (s_Tick (invoke_n arg N (exec user_init s)))
  then PIN_HIGH else PIN_LOW.
Proof.
  intros Hs.
  rewrite invoke_n_pin, user_init_pin_low, invoke_n_tick_odd.
  rewrite user_init_keeps_tick, Hs.
  now destruct (Nat.even N).
Qed.

Lemma pin_follows_tick_parity_witness :
  Z.odd (s_Tick (boot_state sample_periph)) = false /\
  pin_level (invoke_n NULL 3
               (exec (@user_init sample_platform) (boot_state sample_periph)))
    = PIN_HIGH.
Proof.
  split; [reflexivity|].
  rewrite (@pin_follows_tick_parity sample_platform NULL 3
             (boot_state sample_periph)).
  - reflexivity.
  - reflexivity.
Defined.

(** X5. While the counter does not pass the largest [int], it counts
    exactly: after [N] callbacks it is the earlier value plus [N], and it
    is strictly larger than at every earlier point of the run. *)
Theorem tick_exact_without_overflow (arg : Z) (N : nat) (s : state) :
  Int32.in_range (s_Tick s) ->
  s_Tick s + Z.of_nat N < Int32.half_modulus ->
  s_Tick (invoke_n arg N s) = s_Tick s + Z.of_nat N /\
  forall k : nat, (k < N)%nat ->
    s_Tick (invoke_n arg k s) < s_Tick (invoke_n arg N s).
Proof.
  intros Hs Hn. split.
  - now apply invoke_n_tick_exact.
  - intros k Hk.
    rewrite (invoke_n_tick_exact arg k s), (invoke_n_tick_exact arg N s);
      try assumption; lia.
Qed.

Lemma tick_exact_without_overflow_witness :
  Int32.in_range (s_Tick (boot_state sample_periph)) /\
  s_Tick (boot_state sample_periph) + Z.of_nat 4 < Int32.half_modulus /\
  s_Tick (invoke_n NULL 4 (boot_state sample_periph)) = 4.
Proof.
  assert (Hr : Int32.in_range (s_Tick (boot_state sample_periph)))
    by (unfold Int32.in_range, Int32.half_modulus; simpl; lia).
  assert (Hb : s_Tick (boot_state sample_periph) + Z.of_nat 4
               < Int32.half_modulus) by reflexivity.
  split; [exact Hr|]. split; [exact Hb|].
  exact (proj1 (tick_exact_without_overflow NULL 4
                  (boot_state sample_periph) Hr Hb)).
Defined.

(** X6. Callbacks keep the state well typed: if GPIO_OUT and GPIO_ENABLE
    hold 32-bit values and [s_Tick] an [int], they still do after any
    number of callbacks. *)
Theorem callbacks_keep_well_typed (arg : Z) (N : nat) (s : state) :
  well_typed s -> well_typed (invoke_n arg N s).
Proof. apply invoke_n_well_typed. Qed.

Lemma callbacks_keep_well_typed_witness :
  well_typed (boot_state sample_periph) /\
  well_typed (invoke_n NULL 3 (boot_state sample_periph)).
Proof.
  assert (Hw : well_typed (boot_state sample_periph)).
  { unfold well_typed, word32, Int32.in_range, Int32.half_modulus.
    simpl. lia. }
  split; [exact Hw|].
  exact (callbacks_keep_well_typed NULL 3 (boot_state sample_periph) Hw).
Defined.

(** X7. A run of [N] callbacks after [user_init] makes exactly [N] SDK
    calls, all of them [gpio_output_set]: the first drives the pin high and
    they alternate from there; the run ends in the state that [N] single
    invocations reach. *)
Theorem callbacks_calls_alternate `{Platform} (arg : Z) (N : nat) (s : state) :
  calls (callbacks arg N) (exec user_init s)
    = map alternating_call (seq 0 N) /\
  exec (callbacks arg N) (exec user_init s)
    = invoke_n arg N (exec user_init s).
Proof.
  split; [|apply callbacks_exec].
  induction N as [|N IH].
  - reflexivity.
  - rewrite callbacks_calls_S, IH, seq_S, map_app. f_equal.
    unfold calls. rewrite TimerFunction_run. cbn [snd map Nat.add].
    rewrite invoke_n_hw_after_init. unfold alternating_call.
    destruct (Nat.even N).
    + now rewrite user_init_bit1_clear.
    + cbn [with_pin_high gpio_out]. now rewrite lor_BIT1_bit1.
Qed.
